(** * verify_homepage: a Playwright probe of the home page

    Shallow embedding of [jules-scratch/verification/verify_homepage.py].

    The script drives an external browser through Playwright's synchronous
    API.  Every call into the library, and every [print], is a call to an
    oracle of the execution environment, which either returns a value or
    raises; the script's own control flow ([try] / [except Exception] / [finally],
    [with]) is written out over an error-and-state monad whose state is the
    chronological trace of calls and the file system of artifacts. *)

From Stdlib Require Import ZArith.
From stdpp Require Import gmap strings list fin_maps.

Local Open Scope Z_scope.

(** ** Exceptions and outcomes *)

(** The class of a raised exception, as far as the script and the
    interpreter tell classes apart: [Exception] and its subclasses, which
    [except Exception] takes, and the [BaseException]s outside it.  A
    [SystemExit] carries the status the process ends with when nothing
    catches it (0 for [SystemExit()] and [SystemExit(0)]). *)
Inductive exn_class : Type :=
| ExceptionClass
| SystemExitClass (status : Z)
| KeyboardInterruptClass
| OtherBaseException.

(** A raised Python exception: its class and [str(e)], which the handler
    interpolates into its message. *)
Record exn := Exn {
  cls : exn_class;
  str : string
}.

(** [isinstance(e, Exception)]. *)
Definition is_Exception (e : exn) : bool :=
  match cls e with ExceptionClass => true | _ => false end.

Inductive outcome (A : Type) : Type :=
| Returns (a : A)
| Raises (e : exn).
Arguments Returns {A} a.
Arguments Raises {A} e.

Definition returned {A} (o : outcome A) : bool :=
  match o with Returns _ => true | Raises _ => false end.

(** ** Arguments of the library calls *)

(** [wait_until] of [Page.goto]: Playwright accepts these four literals. *)
Inductive wait_until : Type :=
| Commit
| DomContentLoaded
| Load
| NetworkIdle.

(** A locator built by [get_by_role(role, name=..., exact=...)]. *)
Record Locator := {
  loc_role : string;
  loc_name : string;
  loc_exact : option bool
}.

(** Handles.  The script owns one of each. *)
Inductive Playwright := playwright_handle.
Inductive Browser := browser_handle.
Inductive Page := page_handle.

(** A screenshot file: the PNG bytes the browser produced, and whether they
    were captured in full-page mode or from the viewport only. *)
Record screenshot_file := {
  full_page : bool;
  png : list Byte.byte
}.

(** ** Trace of calls *)

Inductive event : Type :=
| EvEnter                                             (* sync_playwright().__enter__() *)
| EvLaunch                                            (* playwright.chromium.launch() *)
| EvNewPage                                           (* browser.new_page() *)
| EvGoto (url : string) (wait : option wait_until)    (* page.goto(url, wait_until=...) *)
| EvContent                                           (* page.content() *)
| EvToBeVisible (l : Locator) (timeout : option Z)    (* expect(l).to_be_visible(timeout=...) *)
| EvScreenshot (path : string) (fp : option bool)     (* page.screenshot(path=..., full_page=...) *)
| EvClose                                             (* browser.close() *)
| EvExit                                              (* sync_playwright().__exit__(...) *)
| EvPrint (s : string).                               (* print(s) wrote s *)

(** ** The execution environment *)

(** What each library call does when the script makes it.  The oracles of
    the calls that take arguments are indexed by them.  Screenshots take the
    effective capture mode and give the bytes to be written.  [print] is a
    call like the others: writing the text to standard output can fail (an
    encoding error, a closed pipe). *)
Record env := {
  sync_playwright_enter : outcome unit;
  launch_result : outcome unit;
  new_page_result : outcome unit;
  goto_result : string -> option wait_until -> outcome unit;
  content_result : outcome string;
  to_be_visible_result : Locator -> option Z -> outcome unit;
  screenshot_result : string -> bool -> outcome (list Byte.byte);
  close_result : outcome unit;
  print_result : string -> outcome unit;
  sync_playwright_exit : outcome bool
}.

(** ** State and the program monad *)

Record world := World {
  trace : list event;
  files : gmap string screenshot_file
}.

Definition init (fs : gmap string screenshot_file) : world :=
  {| trace := []; files := fs |}.

Definition prog (A : Type) : Type := world -> outcome A * world.

Definition ret {A} (a : A) : prog A := fun w => (Returns a, w).

Definition bind {A B} (m : prog A) (k : A -> prog B) : prog B :=
  fun w =>
    match m w with
    | (Returns a, w') => k a w'
    | (Raises e, w') => (Raises e, w')
    end.

Declare Scope prog_scope.
Delimit Scope prog_scope with prog.
Bind Scope prog_scope with prog.
Notation "'let!' x ':=' m 'in' k" := (bind m (fun x => k))
  (at level 10, x name, m at level 100, k at level 200) : prog_scope.
Notation "m '>>' k" := (bind m (fun _ => k))
  (at level 90, right associativity) : prog_scope.

Definition emit (ev : event) : prog unit :=
  fun w => (Returns tt, {| trace := trace w ++ [ev]; files := files w |}).

(** A library call: it is recorded, then does what the environment says. *)
Definition call {A} (ev : event) (o : outcome A) : prog A :=
  fun w => (o, {| trace := trace w ++ [ev]; files := files w |}).

Definition write_file (path : string) (f : screenshot_file) : prog unit :=
  fun w => (Returns tt, {| trace := trace w; files := <[path := f]> (files w) |}).

(** [try: body  except Exception as e: handler(e)]. *)
Definition try_except {A} (body : prog A) (handler : exn -> prog A) : prog A :=
  fun w =>
    match body w with
    | (Returns a, w') => (Returns a, w')
    | (Raises e, w') =>
        if is_Exception e then handler e w' else (Raises e, w')
    end.

(** [try: body  finally: final].  The [finally] suite always runs; an
    exception it raises replaces whatever [body] was about to deliver. *)
Definition try_finally {A} (body : prog A) (final : prog unit) : prog A :=
  fun w =>
    match body w with
    | (r, w') =>
        match final w' with
        | (Returns _, w'') => (r, w'')
        | (Raises e, w'') => (Raises e, w'')
        end
    end.

(** [with cm as x: body(x)].  [__exit__] is not called when [__enter__]
    raises; a true result of [__exit__] suppresses the body's exception. *)
Definition with_ {A} (enter : prog A) (exit_ : prog bool) (body : A -> prog unit)
  : prog unit :=
  fun w =>
    match enter w with
    | (Raises e, w') => (Raises e, w')
    | (Returns x, w') =>
        match body x w' with
        | (Returns _, w'') =>
            match exit_ w'' with
            | (Returns _, w3) => (Returns tt, w3)
            | (Raises e', w3) => (Raises e', w3)
            end
        | (Raises e, w'') =>
            match exit_ w'' with
            | (Returns true, w3) => (Returns tt, w3)
            | (Returns false, w3) => (Raises e, w3)
            | (Raises e', w3) => (Raises e', w3)
            end
        end
    end.

(** ** The library, over an environment *)

Definition nl : string := String (Ascii.ascii_of_nat 10) EmptyString.

Section Script.

Variable E : env.

(** [print(s)]: the text reaches standard output, and is recorded, when
    the write succeeds; otherwise [print] raises and nothing is recorded. *)
Definition print (s : string) : prog unit :=
  fun w =>
    match print_result E s with
    | Returns _ => emit (EvPrint s) w
    | Raises e => (Raises e, w)
    end.

Definition launch (_ : Playwright) : prog Browser :=
  (call EvLaunch (launch_result E) >> ret browser_handle)%prog.

Definition new_page (_ : Browser) : prog Page :=
  (call EvNewPage (new_page_result E) >> ret page_handle)%prog.

Definition goto (_ : Page) (url : string) (wait : option wait_until) : prog unit :=
  call (EvGoto url wait) (goto_result E url wait).

Definition content (_ : Page) : prog string :=
  call EvContent (content_result E).

Definition get_by_role (_ : Page) (role name : string) (exact : option bool)
  : Locator :=
  {| loc_role := role; loc_name := name; loc_exact := exact |}.

Definition expect (l : Locator) : Locator := l.

Definition to_be_visible (l : Locator) (timeout : option Z) : prog unit :=
  call (EvToBeVisible l timeout) (to_be_visible_result E l timeout).

(** [page.screenshot(path=..., full_page=...)]: an omitted [full_page] is
    Playwright's default, false (viewport only).  The file is written only
    when the capture succeeds. *)
Definition screenshot (_ : Page) (path : string) (fp : option bool) : prog unit :=
  (let! data := call (EvScreenshot path fp)
                     (screenshot_result E path (default false fp)) in
   write_file path {| full_page := default false fp; png := data |})%prog.

Definition close (_ : Browser) : prog unit :=
  call EvClose (close_result E).

(** ** The script *)

Definition url : string := "http://localhost:3000/".
Definition heading_name : string := "Novel to Manga Converter".
Definition homepage_png : string := "jules-scratch/verification/homepage.png".
Definition error_png : string := "jules-scratch/verification/error.png".
Definition success_message : string := "Screenshot taken successfully!".
Definition error_prefix : string := "An error occurred: ".
Definition confirmation_message : string := "Error screenshot taken.".

(** The suite of the [try]. *)
Definition try_suite (page : Page) : prog unit :=
  (goto page url (Some DomContentLoaded) >>
   print "--- Page Content ---" >>
   let! c := content page in
   print c >>
   print "--------------------" >>
   let heading := get_by_role page "heading" heading_name None in
   to_be_visible (expect heading) (Some 10000) >>
   screenshot page homepage_png None >>
   print (nl +:+ success_message))%prog.

(** The suite of [except Exception as e]. *)
Definition except_suite (page : Page) (e : exn) : prog unit :=
  (print (nl +:+ error_prefix +:+ str e) >>
   screenshot page error_png None >>
   print confirmation_message)%prog.

Definition run (playwright : Playwright) : prog unit :=
  (let! browser := launch playwright in
   let! page := new_page browser in
   try_finally
     (try_except (try_suite page) (except_suite page))
     (close browser))%prog.

(** [with sync_playwright() as playwright: run(playwright)]. *)
Definition script : prog unit :=
  with_ (call EvEnter (sync_playwright_enter E) >> ret playwright_handle)%prog
        (call EvExit (sync_playwright_exit E))
        run.

End Script.


(** ** Observations of a run *)

Definition result_of {A} (p : prog A) (fs : gmap string screenshot_file)
  : outcome A := fst (p (init fs)).
Definition trace_of {A} (p : prog A) (fs : gmap string screenshot_file)
  : list event := trace (snd (p (init fs))).
Definition files_of {A} (p : prog A) (fs : gmap string screenshot_file)
  : gmap string screenshot_file := files (snd (p (init fs))).

(** The lines printed, in order. *)
Definition printed (tr : list event) : list string :=
  omap (fun ev => match ev with EvPrint s => Some s | _ => None end) tr.

Definition is_close (ev : event) : bool :=
  match ev with EvClose => true | _ => false end.
Definition is_goto (ev : event) : bool :=
  match ev with EvGoto _ _ => true | _ => false end.

Definition is_error_screenshot (ev : event) : bool :=
  match ev with EvScreenshot p _ => bool_decide (p = error_png) | _ => false end.

Definition close_count (tr : list event) : nat :=
  length (List.filter is_close tr).

(** [needle] occurs in [hay]. *)
Definition contains (hay needle : string) : Prop :=
  exists pre post, hay = pre +:+ needle +:+ post.

(** The locator the script waits on. *)
Definition heading : Locator :=
  get_by_role page_handle "heading" heading_name None.

(** The [try] suite raises [e]: running lines 11 to 24 ends with [e]
    raised, by a library call or by a [print]. *)
Definition fails_in_try (E : env) (e : exn) : Prop :=
  result_of (try_suite E page_handle) ∅ = Raises e.

(** The [try] suite runs to its end. *)
Definition try_succeeds (E : env) : Prop :=
  result_of (try_suite E page_handle) ∅ = Returns tt.

(** The text of the handler's first [print]. *)
Definition error_message (e : exn) : string :=
  nl +:+ error_prefix +:+ str e.

(** [page.screenshot(path=p)] occurs in the trace. *)
Definition attempted (p : string) (tr : list event) : bool :=
  existsb (fun ev => match ev with
                     | EvScreenshot q _ => bool_decide (q = p)
                     | _ => false
                     end) tr.



(** ** Concrete environments *)

Definition png_stub : list Byte.byte := [Byte.x89; Byte.x50; Byte.x4e; Byte.x47].

Definition connection_refused : exn :=
  {| cls := ExceptionClass;
     str := "net::ERR_CONNECTION_REFUSED at http://localhost:3000/" |}.
Definition target_closed : exn :=
  {| cls := ExceptionClass; str := "Target page, context or browser has been closed" |}.
Definition not_visible : exn :=
  {| cls := ExceptionClass; str := "Locator expected to be visible" |}.
Definition browser_gone : exn :=
  {| cls := ExceptionClass; str := "Connection closed while reading from the driver" |}.

(** Everything works: the server answers and shows the heading. *)
Definition env_ok : env := {|
  sync_playwright_enter := Returns tt;
  launch_result := Returns tt;
  new_page_result := Returns tt;
  goto_result := fun _ _ => Returns tt;
  content_result := Returns "<html><h1>Novel to Manga Converter</h1></html>";
  to_be_visible_result := fun _ _ => Returns tt;
  screenshot_result := fun _ _ => Returns png_stub;
  close_result := Returns tt;
  print_result := fun _ => Returns tt;
  sync_playwright_exit := Returns false
|}.

(** The browser starts but no page can be opened in it. *)
Definition env_no_page : env := {|
  sync_playwright_enter := Returns tt;
  launch_result := Returns tt;
  new_page_result := Raises target_closed;
  goto_result := fun _ _ => Returns tt;
  content_result := Returns "";
  to_be_visible_result := fun _ _ => Returns tt;
  screenshot_result := fun _ _ => Returns png_stub;
  close_result := Returns tt;
  print_result := fun _ => Returns tt;
  sync_playwright_exit := Returns false
|}.

(** Nothing listens on port 3000; the blank page can still be captured. *)
Definition env_refused : env := {|
  sync_playwright_enter := Returns tt;
  launch_result := Returns tt;
  new_page_result := Returns tt;
  goto_result := fun _ _ => Raises connection_refused;
  content_result := Returns "";
  to_be_visible_result := fun _ _ => Raises not_visible;
  screenshot_result := fun _ _ => Returns png_stub;
  close_result := Returns tt;
  print_result := fun _ => Returns tt;
  sync_playwright_exit := Returns false
|}.

(** The server answers with a page that never shows the heading. *)
Definition env_no_heading : env := {|
  sync_playwright_enter := Returns tt;
  launch_result := Returns tt;
  new_page_result := Returns tt;
  goto_result := fun _ _ => Returns tt;
  content_result := Returns "<html><h1>Welcome</h1></html>";
  to_be_visible_result := fun _ _ => Raises not_visible;
  screenshot_result := fun _ _ => Returns png_stub;
  close_result := Returns tt;
  print_result := fun _ => Returns tt;
  sync_playwright_exit := Returns false
|}.

(** Nothing listens on port 3000 and the page cannot be captured either. *)
Definition env_refused_no_capture : env := {|
  sync_playwright_enter := Returns tt;
  launch_result := Returns tt;
  new_page_result := Returns tt;
  goto_result := fun _ _ => Raises connection_refused;
  content_result := Returns "";
  to_be_visible_result := fun _ _ => Raises not_visible;
  screenshot_result := fun _ _ => Raises target_closed;
  close_result := Returns tt;
  print_result := fun _ => Returns tt;
  sync_playwright_exit := Returns false
|}.

(** As before, and closing the browser fails as well. *)
Definition env_refused_all_fail : env := {|
  sync_playwright_enter := Returns tt;
  launch_result := Returns tt;
  new_page_result := Returns tt;
  goto_result := fun _ _ => Raises connection_refused;
  content_result := Returns "";
  to_be_visible_result := fun _ _ => Raises not_visible;
  screenshot_result := fun _ _ => Raises target_closed;
  close_result := Raises browser_gone;
  print_result := fun _ => Returns tt;
  sync_playwright_exit := Returns false
|}.

(** [KeyboardInterrupt]: a [BaseException] that is not an [Exception]. *)
Definition keyboard_interrupt : exn :=
  {| cls := KeyboardInterruptClass; str := "" |}.

(** The user interrupts the script while it waits for the heading. *)
Definition env_interrupted : env := {|
  sync_playwright_enter := Returns tt;
  launch_result := Returns tt;
  new_page_result := Returns tt;
  goto_result := fun _ _ => Returns tt;
  content_result := Returns "<html><h1>Novel to Manga Converter</h1></html>";
  to_be_visible_result := fun _ _ => Raises keyboard_interrupt;
  screenshot_result := fun _ _ => Returns png_stub;
  close_result := Returns tt;
  print_result := fun _ => Returns tt;
  sync_playwright_exit := Returns false
|}.

(** Everything works until the browser is closed. *)
Definition env_close_fails : env := {|
  sync_playwright_enter := Returns tt;
  launch_result := Returns tt;
  new_page_result := Returns tt;
  goto_result := fun _ _ => Returns tt;
  content_result := Returns "<html><h1>Novel to Manga Converter</h1></html>";
  to_be_visible_result := fun _ _ => Returns tt;
  screenshot_result := fun _ _ => Returns png_stub;
  close_result := Raises browser_gone;
  print_result := fun _ => Returns tt;
  sync_playwright_exit := Returns false
|}.

(** The browser cannot be started. *)
Definition env_no_browser : env := {|
  sync_playwright_enter := Returns tt;
  launch_result := Raises browser_gone;
  new_page_result := Returns tt;
  goto_result := fun _ _ => Returns tt;
  content_result := Returns "";
  to_be_visible_result := fun _ _ => Returns tt;
  screenshot_result := fun _ _ => Returns png_stub;
  close_result := Returns tt;
  print_result := fun _ => Returns tt;
  sync_playwright_exit := Returns false
|}.

(** Standard output cannot encode a character of the text. *)
Definition encode_error : exn :=
  {| cls := ExceptionClass;
     str := "'charmap' codec can't encode character" |}.

(** Nothing listens on port 3000, and the error message cannot be
    printed. *)
Definition env_refused_mute : env := {|
  sync_playwright_enter := Returns tt;
  launch_result := Returns tt;
  new_page_result := Returns tt;
  goto_result := fun _ _ => Raises connection_refused;
  content_result := Returns "";
  to_be_visible_result := fun _ _ => Raises not_visible;
  screenshot_result := fun _ _ => Returns png_stub;
  close_result := Returns tt;
  print_result := fun s =>
    if bool_decide (s = error_message connection_refused)
    then Raises encode_error else Returns tt;
  sync_playwright_exit := Returns false
|}.

(** Everything works, but the page's markup cannot be printed. *)
Definition env_unprintable : env := {|
  sync_playwright_enter := Returns tt;
  launch_result := Returns tt;
  new_page_result := Returns tt;
  goto_result := fun _ _ => Returns tt;
  content_result := Returns "<html><h1>Novel to Manga Converter</h1></html>";
  to_be_visible_result := fun _ _ => Returns tt;
  screenshot_result := fun _ _ => Returns png_stub;
  close_result := Returns tt;
  print_result := fun s =>
    if bool_decide (s = "<html><h1>Novel to Manga Converter</h1></html>")
    then Raises encode_error else Returns tt;
  sync_playwright_exit := Returns false
|}.

(** Everything works, but the success message cannot be printed. *)
Definition env_success_mute : env := {|
  sync_playwright_enter := Returns tt;
  launch_result := Returns tt;
  new_page_result := Returns tt;
  goto_result := fun _ _ => Returns tt;
  content_result := Returns "<html><h1>Novel to Manga Converter</h1></html>";
  to_be_visible_result := fun _ _ => Returns tt;
  screenshot_result := fun _ _ => Returns png_stub;
  close_result := Returns tt;
  print_result := fun s =>
    if bool_decide (s = nl +:+ success_message)
    then Raises encode_error else Returns tt;
  sync_playwright_exit := Returns false
|}.

(** * Properties *)

(** ** Symbolic execution *)

Ltac unfold_script :=
  unfold fails_in_try, try_succeeds, error_message, result_of, trace_of,
    files_of, init, heading, get_by_role in *;
  cbv [script with_ run try_suite except_suite launch new_page goto content
       to_be_visible screenshot close print call emit write_file bind ret
       try_except try_finally get_by_role expect default trace files].

(** Use the hypotheses on the oracles, then split on those left open. *)
Ltac use_oracles :=
  repeat match goal with
         | H : _ = Returns _ |- _ => rewrite H
         | H : _ = Raises _ |- _ => rewrite H
         | H : is_Exception _ = _ |- _ => rewrite H
         end.

Ltac split_oracles :=
  repeat match goal with
         | |- context [match ?o with Returns _ => _ | Raises _ => _ end] =>
             destruct o as [?|?] eqn:?
         | |- context [if is_Exception ?e then _ else _] =>
             destruct (is_Exception e) eqn:?
         | u : unit |- _ => destruct u
         end.

(** Split a concrete trace [a] events and [b] events before its end. *)
Ltac cut_trace a b :=
  match goal with
  | |- exists pre post, ?tr = _ /\ _ =>
      exists (take (length tr - a) tr), (drop (length tr - b) tr)
  end.

Ltac run_script := unfold_script; use_oracles; split_oracles; cbn [fst snd app].

Lemma append_empty_r (s : string) : s +:+ EmptyString = s.
Proof.
  induction s as [|a s IH]; [reflexivity |].
  change (String a (s +:+ EmptyString) = String a s). now rewrite IH.
Qed.

Lemma contains_suffix (pre s : string) : contains (pre +:+ s) s.
Proof. exists pre, EmptyString. now rewrite append_empty_r. Qed.

Lemma fails_in_try_not_succeeds (E : env) (e : exn) :
  fails_in_try E e -> try_succeeds E -> False.
Proof. unfold fails_in_try, try_succeeds. congruence. Qed.

(** ** Closing the browser *)

(** C2, as amended: in every run in which the browser was launched and the
    page was opened, [browser.close()] is called exactly once, as the last
    call of [run], whichever way the [try] statement is left. *)
Theorem close_once_after_page_opened (E : env) (fs : gmap string screenshot_file) :
  launch_result E = Returns tt ->
  new_page_result E = Returns tt ->
  close_count (trace_of (run E playwright_handle) fs) = 1%nat /\
  last (trace_of (run E playwright_handle) fs) = Some EvClose.
Proof.
  intros Hl Hn. run_script; split; reflexivity.
Qed.

Lemma close_once_after_page_opened_witness :
  launch_result env_no_heading = Returns tt /\
  new_page_result env_no_heading = Returns tt /\
  close_count (trace_of (run env_no_heading playwright_handle) ∅) = 1%nat /\
  last (trace_of (run env_no_heading playwright_handle) ∅) = Some EvClose.
Proof.
  split; [reflexivity | split; [reflexivity |]].
  apply (close_once_after_page_opened env_no_heading ∅); reflexivity.
Defined.

(** C2, as stated, fails: when the browser is launched but
    [browser.new_page()] raises, [run] is left before its [try] statement
    and [browser.close()] is never called. *)
Lemma close_skipped_when_new_page_fails :
  launch_result env_no_page = Returns tt /\
  result_of (run env_no_page playwright_handle) ∅ = Raises target_closed /\
  close_count (trace_of (run env_no_page playwright_handle) ∅) = 0%nat.
Proof. repeat split; reflexivity. Qed.


(** ** Recovery from failures *)

(** After symbolic execution with the outcome of the [try] suite as a
    premise of the goal: name the raised exception and drop the branches
    the hypotheses exclude. *)
Ltac use_try_outcome :=
  let Hf := fresh "Hf" in
  intros Hf;
  first [ discriminate Hf | injection Hf as -> | idtac ];
  try congruence.

(** C1, as amended: once the browser is launched and the page is opened, an
    [Exception] raised by the [try] suite (navigation, content dump,
    visibility wait, success screenshot, or one of the prints between them)
    is caught inside [run].  The handler prints its message; when that
    print returns, the message is in the output and the failure screenshot
    is attempted exactly once; [run] then returns normally when that
    screenshot, the confirmation print and [browser.close()] do not
    raise. *)
Theorem try_failures_are_recovered (E : env) (fs : gmap string screenshot_file)
    (e : exn) :
  launch_result E = Returns tt ->
  new_page_result E = Returns tt ->
  fails_in_try E e ->
  is_Exception e = true ->
  print_result E (error_message e) = Returns tt ->
  In (error_message e)
     (printed (trace_of (run E playwright_handle) fs)) /\
  length (List.filter is_error_screenshot
            (trace_of (run E playwright_handle) fs)) = 1%nat /\
  (returned (screenshot_result E error_png false) = true ->
   print_result E confirmation_message = Returns tt ->
   close_result E = Returns tt ->
   result_of (run E playwright_handle) fs = Returns tt).
Proof.
  intros Hl Hn Hf He Hp. revert Hf. run_script.
  all: use_try_outcome.
  all: split; [cbn; auto 10 | split; [reflexivity | cbn; congruence]].
Qed.

Lemma try_failures_are_recovered_witness :
  fails_in_try env_no_heading not_visible /\
  In (error_message not_visible)
     (printed (trace_of (run env_no_heading playwright_handle) ∅)) /\
  length (List.filter is_error_screenshot
            (trace_of (run env_no_heading playwright_handle) ∅)) = 1%nat /\
  (returned (screenshot_result env_no_heading error_png false) = true ->
   print_result env_no_heading confirmation_message = Returns tt ->
   close_result env_no_heading = Returns tt ->
   result_of (run env_no_heading playwright_handle) ∅ = Returns tt).
Proof.
  split; [reflexivity |].
  apply (try_failures_are_recovered env_no_heading ∅ not_visible);
    reflexivity.
Defined.

(** C1, as stated, fails: a failure while opening the page context is not
    caught.  [run] raises it to its caller, prints nothing and attempts no
    failure screenshot. *)
Lemma run_raises_when_new_page_fails :
  launch_result env_no_page = Returns tt /\
  new_page_result env_no_page = Raises target_closed /\
  is_Exception target_closed = true /\
  result_of (run env_no_page playwright_handle) ∅ = Raises target_closed /\
  printed (trace_of (run env_no_page playwright_handle) ∅) = [] /\
  List.filter is_error_screenshot
    (trace_of (run env_no_page playwright_handle) ∅) = [].
Proof. repeat split; reflexivity. Qed.

(** ** Navigation *)

(** Split a membership in a concrete trace into its cases, keeping the
    events built with the constructor of the given pattern. *)
Ltac in_trace H :=
  cbn in H;
  repeat match type of H with
         | _ \/ _ => destruct H as [H | H]
         | False => destruct H
         end;
  try discriminate H.

(** C8, as amended: [page.goto] is only ever called with the fixed URL and
    [wait_until="domcontentloaded"], never with ["load"], ["networkidle"]
    or the default; a run that gets as far as its [try] statement (launch
    and page opening returned) makes this call exactly once, and a run
    that does not makes it not at all.  Nothing retries it. *)
Theorem navigation_once_domcontentloaded (E : env)
    (fs : gmap string screenshot_file) :
  List.filter is_goto (trace_of (run E playwright_handle) fs) =
    (if returned (launch_result E) && returned (new_page_result E)
     then [EvGoto "http://localhost:3000/" (Some DomContentLoaded)]
     else []) /\
  (forall u w,
     In (EvGoto u w) (trace_of (run E playwright_handle) fs) ->
     u = "http://localhost:3000/" /\ w = Some DomContentLoaded /\
     w <> Some Load /\ w <> Some NetworkIdle /\ w <> None).
Proof.
  split.
  - run_script; reflexivity.
  - intros u w. run_script; intros Hin; in_trace Hin.
    all: injection Hin as <- <-; repeat split; discriminate.
Qed.

(** C8, as stated, fails: a run in which opening the page raises never
    navigates, so navigation does not happen exactly once in every run. *)
Lemma navigation_skipped_when_new_page_fails :
  launch_result env_no_page = Returns tt /\
  result_of (run env_no_page playwright_handle) ∅ = Raises target_closed /\
  List.filter is_goto (trace_of (run env_no_page playwright_handle) ∅) = [].
Proof. repeat split; reflexivity. Qed.

(** ** The two artifacts *)

Lemma homepage_png_neq_error_png : homepage_png <> error_png.
Proof. discriminate. Qed.

Lemma error_png_neq_homepage_png : error_png <> homepage_png.
Proof. discriminate. Qed.

(** C4, as amended: when the browser and the page open and every call and
    print of the [try] suite returns (the server answers, the markup is
    dumped, the heading becomes visible, the capture succeeds and the
    success message is printed), [run] writes the captured bytes to
    [homepage.png] as a viewport screenshot ([full_page] is not passed, so
    the capture is not full-page), leaves [error.png] alone without
    attempting it, and prints the success message. *)
Theorem success_run (E : env) (fs : gmap string screenshot_file)
    (c : string) (d : list Byte.byte) :
  launch_result E = Returns tt ->
  new_page_result E = Returns tt ->
  goto_result E url (Some DomContentLoaded) = Returns tt ->
  print_result E "--- Page Content ---" = Returns tt ->
  content_result E = Returns c ->
  print_result E c = Returns tt ->
  print_result E "--------------------" = Returns tt ->
  to_be_visible_result E heading (Some 10000) = Returns tt ->
  screenshot_result E homepage_png false = Returns d ->
  print_result E (nl +:+ success_message) = Returns tt ->
  files_of (run E playwright_handle) fs !! homepage_png
    = Some {| full_page := false; png := d |} /\
  files_of (run E playwright_handle) fs !! error_png = fs !! error_png /\
  List.filter is_error_screenshot (trace_of (run E playwright_handle) fs) = [] /\
  In (nl +:+ success_message)
     (printed (trace_of (run E playwright_handle) fs)) /\
  contains (nl +:+ success_message) "Screenshot taken successfully!".
Proof.
  intros Hl Hn Hg Hp1 Hc Hp2 Hp3 Hv Hs Hp4. run_script.
  all: split; [apply lookup_insert_eq |].
  all: split; [apply lookup_insert_ne, homepage_png_neq_error_png |].
  all: split; [reflexivity |].
  all: split; [cbn; auto 10 | apply contains_suffix].
Qed.

Lemma success_run_witness :
  launch_result env_ok = Returns tt /\
  to_be_visible_result env_ok heading (Some 10000) = Returns tt /\
  files_of (run env_ok playwright_handle) ∅ !! homepage_png
    = Some {| full_page := false; png := png_stub |} /\
  files_of (run env_ok playwright_handle) ∅ !! error_png
    = (∅ : gmap string screenshot_file) !! error_png /\
  List.filter is_error_screenshot
    (trace_of (run env_ok playwright_handle) ∅) = [] /\
  In (nl +:+ success_message)
     (printed (trace_of (run env_ok playwright_handle) ∅)) /\
  contains (nl +:+ success_message) "Screenshot taken successfully!".
Proof.
  split; [reflexivity | split; [reflexivity |]].
  apply (success_run env_ok ∅
           "<html><h1>Novel to Manga Converter</h1></html>" png_stub);
    reflexivity.
Defined.

(** C4, as stated, fails: with a reachable server that shows the heading,
    the file written to [homepage.png] is not a full-page screenshot.  The
    call passes no [full_page], and the capture is of the viewport. *)
Lemma homepage_screenshot_not_full_page :
  goto_result env_ok url (Some DomContentLoaded) = Returns tt /\
  to_be_visible_result env_ok heading (Some 10000) = Returns tt /\
  In (EvScreenshot homepage_png None)
     (trace_of (run env_ok playwright_handle) ∅) /\
  ~ (exists f, files_of (run env_ok playwright_handle) ∅ !! homepage_png = Some f
               /\ full_page f = true).
Proof.
  split; [reflexivity | split; [reflexivity | split]].
  - cbn. auto 20.
  - intros (f & Hf & Hfull).
    assert (Hw : files_of (run env_ok playwright_handle) ∅ !! homepage_png
                 = Some {| full_page := false; png := png_stub |})
      by apply lookup_insert_eq.
    rewrite Hw in Hf. injection Hf as <-. discriminate.
Qed.

(** C5, as amended: when the browser and the page open and navigation
    fails with an [Exception], [run] catches it and never attempts or
    touches [homepage.png].  When the handler's print of the message
    returns, the output has a message that contains the failure
    description and the screenshot to [error.png] is attempted, the file
    being written exactly when that attempt does not raise.  When that
    print raises, nothing is printed, no screenshot is attempted,
    [error.png] is left as it was and the print's exception leaves [run]
    after [browser.close()]. *)
Theorem navigation_failure_run (E : env) (fs : gmap string screenshot_file)
    (e : exn) :
  launch_result E = Returns tt ->
  new_page_result E = Returns tt ->
  goto_result E url (Some DomContentLoaded) = Raises e ->
  is_Exception e = true ->
  (~ In (EvScreenshot homepage_png None)
        (trace_of (run E playwright_handle) fs) /\
   files_of (run E playwright_handle) fs !! homepage_png = fs !! homepage_png) /\
  (print_result E (error_message e) = Returns tt ->
   In (error_message e) (printed (trace_of (run E playwright_handle) fs)) /\
   contains (error_message e) (str e) /\
   In (EvScreenshot error_png None) (trace_of (run E playwright_handle) fs) /\
   files_of (run E playwright_handle) fs !! error_png
     = match screenshot_result E error_png false with
       | Returns d => Some {| full_page := false; png := d |}
       | Raises _ => fs !! error_png
       end) /\
  (forall e', print_result E (error_message e) = Raises e' ->
   printed (trace_of (run E playwright_handle) fs) = [] /\
   List.filter is_error_screenshot (trace_of (run E playwright_handle) fs) = [] /\
   files_of (run E playwright_handle) fs !! error_png = fs !! error_png /\
   result_of (run E playwright_handle) fs
     = match close_result E with
       | Returns _ => Raises e'
       | Raises e'' => Raises e''
       end).
Proof.
  intros Hl Hn Hg He.
  assert (Hc : contains (error_message e) (str e)).
  { destruct (contains_suffix (nl +:+ error_prefix) (str e)) as (pre & post & H).
    exists pre, post. rewrite <- H. unfold error_message. clear.
    generalize (str e). intros s. reflexivity. }
  revert Hc. run_script; intros Hc.
  all: split;
    [ split; [ cbn; intuition discriminate
             | first [ apply lookup_insert_ne, error_png_neq_homepage_png
                     | reflexivity ] ] |].
  all: split.
  all: match goal with
       | |- forall e', _ = Raises e' -> _ =>
           intros e' Hp;
           first [ discriminate Hp
                 | injection Hp as <-; repeat split; reflexivity ]
       | |- _ = Returns _ -> _ =>
           intros Hp;
           first [ discriminate Hp
                 | split; [cbn; auto |];
                   split; [exact Hc |];
                   split; [cbn; auto 10 |];
                   first [apply lookup_insert_eq | reflexivity] ]
       end.
Qed.

Lemma navigation_failure_run_witness :
  goto_result env_refused url (Some DomContentLoaded) = Raises connection_refused /\
  print_result env_refused (error_message connection_refused) = Returns tt /\
  In (error_message connection_refused)
     (printed (trace_of (run env_refused playwright_handle) ∅)) /\
  In (EvScreenshot error_png None)
     (trace_of (run env_refused playwright_handle) ∅) /\
  files_of (run env_refused playwright_handle) ∅ !! error_png
    = Some {| full_page := false; png := png_stub |}.
Proof.
  split; [reflexivity | split; [reflexivity |]].
  destruct (navigation_failure_run env_refused ∅ connection_refused)
    as (_ & H & _); [reflexivity | reflexivity | reflexivity | reflexivity |].
  destruct (H eq_refl) as (H1 & _ & H3 & H4).
  split; [exact H1 | split; [exact H3 | exact H4]].
Defined.

(** C5, as stated, fails: with the connection refused and a page that
    cannot be captured, the handler's screenshot raises and no [error.png]
    is written. *)
Lemma error_png_missing_when_capture_fails :
  launch_result env_refused_no_capture = Returns tt /\
  new_page_result env_refused_no_capture = Returns tt /\
  goto_result env_refused_no_capture url (Some DomContentLoaded)
    = Raises connection_refused /\
  files_of (run env_refused_no_capture playwright_handle) ∅ !! error_png = None.
Proof. repeat split; reflexivity. Qed.

(** ** The unguarded failure screenshot *)

(** C7, as amended: when the handler's screenshot to [error.png] is
    attempted (the [try] suite raised an [Exception] and the handler's
    print of the message returned) and raises, nothing in [run] catches
    that exception.  The [finally] suite still calls [browser.close()]; if
    it returns, the screenshot's exception reaches [run]'s caller, and if
    it raises, the exception of [browser.close()] reaches the caller in
    its place. *)
Theorem error_screenshot_failure_propagates (E : env)
    (fs : gmap string screenshot_file) (e e' : exn) :
  launch_result E = Returns tt ->
  new_page_result E = Returns tt ->
  fails_in_try E e ->
  is_Exception e = true ->
  print_result E (error_message e) = Returns tt ->
  screenshot_result E error_png false = Raises e' ->
  result_of (run E playwright_handle) fs
    = match close_result E with
      | Returns _ => Raises e'
      | Raises e'' => Raises e''
      end /\
  exists pre, trace_of (run E playwright_handle) fs
              = pre ++ [EvScreenshot error_png None; EvClose].
Proof.
  intros Hl Hn Hf He Hp Hs. revert Hf. run_script.
  all: use_try_outcome.
  all: split; [reflexivity |].
  all: match goal with
       | |- exists pre, ?tr = _ =>
           exists (take (length tr - 2) tr); reflexivity
       end.
Qed.

Lemma error_screenshot_failure_propagates_witness :
  fails_in_try env_refused_no_capture connection_refused /\
  screenshot_result env_refused_no_capture error_png false = Raises target_closed /\
  result_of (run env_refused_no_capture playwright_handle) ∅
    = match close_result env_refused_no_capture with
      | Returns _ => Raises target_closed
      | Raises e'' => Raises e''
      end /\
  exists pre, trace_of (run env_refused_no_capture playwright_handle) ∅
              = pre ++ [EvScreenshot error_png None; EvClose].
Proof.
  split; [reflexivity | split; [reflexivity |]].
  apply (error_screenshot_failure_propagates
           env_refused_no_capture ∅ connection_refused target_closed);
    reflexivity.
Defined.

(** C7, as stated, fails: when [browser.close()] raises too, it is the
    exception of [close], not the one of the failure screenshot, that
    reaches the caller of [run]. *)
Lemma close_failure_masks_screenshot_failure :
  launch_result env_refused_all_fail = Returns tt /\
  new_page_result env_refused_all_fail = Returns tt /\
  goto_result env_refused_all_fail url (Some DomContentLoaded)
    = Raises connection_refused /\
  screenshot_result env_refused_all_fail error_png false = Raises target_closed /\
  result_of (run env_refused_all_fail playwright_handle) ∅ = Raises browser_gone /\
  result_of (run env_refused_all_fail playwright_handle) ∅ <> Raises target_closed.
Proof. repeat split; try reflexivity. discriminate. Qed.

(** ** Order of the handler's messages *)

(** C10, as amended: in every run whose [try] suite raises an [Exception]
    and whose handler manages to print the error message, that message is
    printed immediately before the screenshot to [error.png] is attempted,
    which is the first attempt on that path; it is therefore in the output
    whatever that attempt does.  After the attempt, the confirmation
    message is printed if and only if the attempt returned, in which case
    the captured bytes are in [error.png], and the confirmation print
    itself did not raise. *)
Theorem error_logged_before_error_screenshot (E : env)
    (fs : gmap string screenshot_file) (e : exn) :
  launch_result E = Returns tt ->
  new_page_result E = Returns tt ->
  fails_in_try E e ->
  is_Exception e = true ->
  print_result E (error_message e) = Returns tt ->
  exists pre post,
    trace_of (run E playwright_handle) fs
      = pre ++ EvPrint (error_message e)
            :: EvScreenshot error_png None :: post /\
    List.filter is_error_screenshot pre = [] /\
    (In (EvPrint "Error screenshot taken.") post
     <-> (exists d, screenshot_result E error_png false = Returns d) /\
         print_result E confirmation_message = Returns tt) /\
    (forall d, screenshot_result E error_png false = Returns d ->
               files_of (run E playwright_handle) fs !! error_png
               = Some {| full_page := false; png := d |}) /\
    (forall e', screenshot_result E error_png false = Raises e' ->
                files_of (run E playwright_handle) fs !! error_png
                = fs !! error_png).
Proof.
  intros Hl Hn Hf He Hp. revert Hf. run_script.
  all: use_try_outcome.
  all: first [ cut_trace 3%nat 1%nat; split; [reflexivity |]
             | cut_trace 4%nat 2%nat; split; [reflexivity |] ].
  all: split; [reflexivity |].
  all: split;
    [ cbn; split;
      [ intros Hin; first [ now eauto | intuition discriminate ]
      | intros [[d' Hd'] Hq]; first [congruence | auto 10] ] |].
  all: split;
    [ intros d' Hd';
      first [ congruence
            | injection Hd' as <-; apply lookup_insert_eq ]
    | intros e'' He'';
      first [ congruence
            | reflexivity
            | apply lookup_insert_ne, homepage_png_neq_error_png ] ].
Qed.

Lemma error_logged_before_error_screenshot_witness :
  fails_in_try env_refused_no_capture connection_refused /\
  exists pre post,
    trace_of (run env_refused_no_capture playwright_handle) ∅
      = pre ++ EvPrint (error_message connection_refused)
            :: EvScreenshot error_png None :: post /\
    List.filter is_error_screenshot pre = [] /\
    (In (EvPrint "Error screenshot taken.") post
     <-> (exists d, screenshot_result env_refused_no_capture error_png false
                    = Returns d) /\
         print_result env_refused_no_capture confirmation_message
         = Returns tt) /\
    (forall d, screenshot_result env_refused_no_capture error_png false = Returns d ->
               files_of (run env_refused_no_capture playwright_handle) ∅ !! error_png
               = Some {| full_page := false; png := d |}) /\
    (forall e', screenshot_result env_refused_no_capture error_png false = Raises e' ->
                files_of (run env_refused_no_capture playwright_handle) ∅ !! error_png
                = (∅ : gmap string screenshot_file) !! error_png).
Proof.
  split; [reflexivity |].
  apply (error_logged_before_error_screenshot
           env_refused_no_capture ∅ connection_refused);
    reflexivity.
Defined.

(** C10, as stated, fails: with the connection refused and a standard
    output that cannot take the error message, the run fails, the error is
    caught, and yet its message is not in the output: the handler's print
    raises and the run prints nothing at all. *)
Lemma error_message_lost_when_print_fails :
  launch_result env_refused_mute = Returns tt /\
  new_page_result env_refused_mute = Returns tt /\
  fails_in_try env_refused_mute connection_refused /\
  is_Exception connection_refused = true /\
  ~ In (error_message connection_refused)
       (printed (trace_of (run env_refused_mute playwright_handle) ∅)) /\
  result_of (run env_refused_mute playwright_handle) ∅ = Raises encode_error.
Proof.
  split; [reflexivity | split; [reflexivity | split; [reflexivity |]]].
  split; [reflexivity | split; [| reflexivity]].
  intros H. vm_compute in H. exact H.
Qed.

(** ** Exit status *)




(** ** The heading wait *)

(** What the source fixes about the wait: whenever a run waits for
    visibility, it is on the locator with role ["heading"] and name
    ["Novel to Manga Converter"], built without [exact], and with a timeout
    of 10000 ms, that is ten seconds.  Whether and how the wait fails is
    decided by the library. *)
Lemma heading_wait_arguments (E : env) (fs : gmap string screenshot_file)
    (l : Locator) (timeout : option Z) :
  In (EvToBeVisible l timeout) (trace_of (run E playwright_handle) fs) ->
  loc_role l = "heading" /\
  loc_name l = "Novel to Manga Converter" /\
  loc_exact l = None /\
  timeout = Some (10 * 1000).
Proof.
  run_script; cbn; intros Hin;
    repeat match goal with
           | H : _ \/ _ |- _ => destruct H as [H | H]
           | H : False |- _ => destruct H
           | H : _ = EvToBeVisible _ _ |- _ =>
               first [discriminate H | injection H as <- <-]
           end;
    repeat split; reflexivity.
Qed.

(** ** Runs do not read the file system *)

Section Oblivious.

Context {A B : Type}.






End Oblivious.






(** Decide the [attempted] tests of the goal on its concrete traces. *)
Ltac decide_attempts :=
  repeat match goal with
         | |- context [attempted ?p ?t] =>
             let b := eval vm_compute in (attempted p t) in
             change (attempted p t) with b
         end;
  cbv iota.


(** On a second successful run the older [homepage.png] is replaced. *)
Example stale_homepage_replaced (old : screenshot_file) :
  files_of (run env_ok playwright_handle) {[homepage_png := old]}
    !! homepage_png
  = Some {| full_page := false; png := png_stub |}.
Proof. apply lookup_insert_eq. Qed.

(** * Further properties of the script *)

(** ** What a run may write *)

(** X1: a run that captured [homepage.png] attempts the failure
    screenshot as well only in one situation: the print of the success
    message raised an [Exception], which sent the run into the handler
    after the file was written.  Otherwise a run that wrote
    [homepage.png] never attempts [error.png]. *)
Theorem both_artifacts_only_when_success_print_fails (E : env)
    (fs : gmap string screenshot_file) (d : list Byte.byte) :
  attempted homepage_png (trace_of (run E playwright_handle) fs) = true ->
  screenshot_result E homepage_png false = Returns d ->
  attempted error_png (trace_of (run E playwright_handle) fs) = true ->
  exists e,
    print_result E (nl +:+ success_message) = Raises e /\
    is_Exception e = true /\
    print_result E (error_message e) = Returns tt /\
    files_of (run E playwright_handle) fs !! homepage_png
      = Some {| full_page := false; png := d |}.
Proof.
  intros Hh Hd. revert Hh. run_script. all: decide_attempts.
  all: intros Hh He; try discriminate Hh; try discriminate He.
  all: eexists; split; [reflexivity |].
  all: split; [eassumption |]; split; [eassumption |].
  all: repeat first
         [ rewrite lookup_insert_eq
         | rewrite lookup_insert_ne by exact error_png_neq_homepage_png ].
  all: reflexivity.
Qed.

Lemma both_artifacts_only_when_success_print_fails_witness :
  exists e,
    print_result env_success_mute (nl +:+ success_message) = Raises e /\
    is_Exception e = true /\
    print_result env_success_mute (error_message e) = Returns tt /\
    files_of (run env_success_mute playwright_handle) ∅ !! homepage_png
      = Some {| full_page := false; png := png_stub |}.
Proof.
  apply (both_artifacts_only_when_success_print_fails
           env_success_mute ∅ png_stub);
    reflexivity.
Defined.

(** X4: the screenshot to [homepage.png] is attempted exactly in the runs
    in which the browser was launched, the page was opened, navigation
    returned, the three lines of the content dump were printed and the
    heading was seen. *)
Theorem homepage_screenshot_attempted_iff (E : env)
    (fs : gmap string screenshot_file) :
  In (EvScreenshot homepage_png None) (trace_of (run E playwright_handle) fs) <->
    launch_result E = Returns tt /\
    new_page_result E = Returns tt /\
    goto_result E url (Some DomContentLoaded) = Returns tt /\
    print_result E "--- Page Content ---" = Returns tt /\
    (exists c, content_result E = Returns c /\ print_result E c = Returns tt) /\
    print_result E "--------------------" = Returns tt /\
    to_be_visible_result E heading (Some 10000) = Returns tt.
Proof.
  run_script; cbn; split.
  all: match goal with
       | |- _ \/ _ -> _ =>
           intros Hin;
           repeat match goal with
                  | H : _ \/ _ |- _ => destruct H as [H | H]
                  | H : False |- _ => destruct H
                  | H : _ = EvScreenshot _ _ |- _ => discriminate H
                  end;
           repeat (split; [reflexivity |]);
           solve [ reflexivity
                 | split; [eexists; split; [reflexivity | eassumption] |];
                   split; reflexivity ]
       | |- _ /\ _ -> _ =>
           intros (Hl & Hn & Hg & Hp1 & (c & Hc & Hp2) & Hp3 & Hv);
           first [congruence | auto 20]
       end.
Qed.

(** ** Failures before the [try] statement *)

(** X5: when the launch raises, or the launch returns and opening the page
    raises, [run] raises that very exception; it prints nothing, touches no
    file, never navigates and never calls [browser.close()]. *)
Theorem failure_before_try (E : env) (fs : gmap string screenshot_file)
    (e : exn) :
  launch_result E = Raises e \/
  (launch_result E = Returns tt /\ new_page_result E = Raises e) ->
  result_of (run E playwright_handle) fs = Raises e /\
  printed (trace_of (run E playwright_handle) fs) = [] /\
  files_of (run E playwright_handle) fs = fs /\
  List.filter is_goto (trace_of (run E playwright_handle) fs) = [] /\
  close_count (trace_of (run E playwright_handle) fs) = 0%nat.
Proof.
  intros [Hl | [Hl Hn]]; run_script; repeat split; reflexivity.
Qed.

Lemma failure_before_try_witness :
  result_of (run env_no_browser playwright_handle) ∅ = Raises browser_gone /\
  printed (trace_of (run env_no_browser playwright_handle) ∅) = [] /\
  files_of (run env_no_browser playwright_handle) ∅ = ∅ /\
  List.filter is_goto (trace_of (run env_no_browser playwright_handle) ∅) = [] /\
  close_count (trace_of (run env_no_browser playwright_handle) ∅) = 0%nat.
Proof.
  apply (failure_before_try env_no_browser ∅ browser_gone).
  left. reflexivity.
Defined.

(** ** Exceptions the handler does not take *)

(** X2: [except Exception] does not take a [BaseException] that is not an
    [Exception] (such as [KeyboardInterrupt]).  When the [try] suite raises
    one, the handler is skipped: no failure screenshot is attempted and
    [error.png] is left as it was; the browser is still closed exactly
    once, and the exception reaches the caller unless [browser.close()]
    raises in its place. *)
Theorem base_exception_not_handled (E : env)
    (fs : gmap string screenshot_file) (e : exn) :
  launch_result E = Returns tt ->
  new_page_result E = Returns tt ->
  fails_in_try E e ->
  is_Exception e = false ->
  List.filter is_error_screenshot (trace_of (run E playwright_handle) fs) = [] /\
  files_of (run E playwright_handle) fs !! error_png = fs !! error_png /\
  close_count (trace_of (run E playwright_handle) fs) = 1%nat /\
  result_of (run E playwright_handle) fs
    = match close_result E with
      | Returns _ => Raises e
      | Raises e' => Raises e'
      end.
Proof.
  intros Hl Hn Hf He. revert Hf. run_script.
  all: use_try_outcome.
  all: split; [reflexivity |].
  all: split;
    [ first [ reflexivity
            | apply lookup_insert_ne, homepage_png_neq_error_png ] |].
  all: split; reflexivity.
Qed.

Lemma base_exception_not_handled_witness :
  fails_in_try env_interrupted keyboard_interrupt /\
  List.filter is_error_screenshot
    (trace_of (run env_interrupted playwright_handle) ∅) = [] /\
  files_of (run env_interrupted playwright_handle) ∅ !! error_png
    = (∅ : gmap string screenshot_file) !! error_png /\
  close_count (trace_of (run env_interrupted playwright_handle) ∅) = 1%nat /\
  result_of (run env_interrupted playwright_handle) ∅
    = match close_result env_interrupted with
      | Returns _ => Raises keyboard_interrupt
      | Raises e' => Raises e'
      end.
Proof.
  split; [reflexivity |].
  apply (base_exception_not_handled env_interrupted ∅ keyboard_interrupt);
    reflexivity.
Defined.

(** ** The heading is not there *)

(** X3: when the page loads and its dump is printed but the wait for the
    heading raises an [Exception], the output is the three lines of the
    dump, then the error message if its print returns, then the
    confirmation if the failure screenshot and its own print return as
    well; [homepage.png] is neither attempted nor touched, and [error.png]
    is written exactly when the message was printed and the capture
    returned. *)
Theorem heading_missing_run (E : env) (fs : gmap string screenshot_file)
    (c : string) (e : exn) :
  launch_result E = Returns tt ->
  new_page_result E = Returns tt ->
  goto_result E url (Some DomContentLoaded) = Returns tt ->
  print_result E "--- Page Content ---" = Returns tt ->
  content_result E = Returns c ->
  print_result E c = Returns tt ->
  print_result E "--------------------" = Returns tt ->
  to_be_visible_result E heading (Some 10000) = Raises e ->
  is_Exception e = true ->
  printed (trace_of (run E playwright_handle) fs)
    = ["--- Page Content ---"; c; "--------------------"]
      ++ (if returned (print_result E (error_message e))
          then error_message e
               :: (if returned (screenshot_result E error_png false)
                      && returned (print_result E confirmation_message)
                   then ["Error screenshot taken."] else [])
          else []) /\
  ~ In (EvScreenshot homepage_png None)
       (trace_of (run E playwright_handle) fs) /\
  files_of (run E playwright_handle) fs !! homepage_png = fs !! homepage_png /\
  files_of (run E playwright_handle) fs !! error_png
    = match print_result E (error_message e),
            screenshot_result E error_png false with
      | Returns _, Returns d => Some {| full_page := false; png := d |}
      | _, _ => fs !! error_png
      end.
Proof.
  intros Hl Hn Hg Hp1 Hc Hp2 Hp3 Hv He. run_script.
  all: split; [reflexivity |].
  all: split; [cbn; intuition discriminate |].
  all: split;
    [ first [ apply lookup_insert_ne, error_png_neq_homepage_png
            | reflexivity ] |].
  all: first [apply lookup_insert_eq | reflexivity].
Qed.

Lemma heading_missing_run_witness :
  to_be_visible_result env_no_heading heading (Some 10000) = Raises not_visible /\
  printed (trace_of (run env_no_heading playwright_handle) ∅)
    = ["--- Page Content ---"; "<html><h1>Welcome</h1></html>";
       "--------------------"]
      ++ (if returned (print_result env_no_heading (error_message not_visible))
          then error_message not_visible
               :: (if returned (screenshot_result env_no_heading error_png false)
                      && returned (print_result env_no_heading confirmation_message)
                   then ["Error screenshot taken."] else [])
          else []) /\
  ~ In (EvScreenshot homepage_png None)
       (trace_of (run env_no_heading playwright_handle) ∅) /\
  files_of (run env_no_heading playwright_handle) ∅ !! homepage_png
    = (∅ : gmap string screenshot_file) !! homepage_png /\
  files_of (run env_no_heading playwright_handle) ∅ !! error_png
    = match print_result env_no_heading (error_message not_visible),
            screenshot_result env_no_heading error_png false with
      | Returns _, Returns d => Some {| full_page := false; png := d |}
      | _, _ => (∅ : gmap string screenshot_file) !! error_png
      end.
Proof.
  split; [reflexivity |].
  apply (heading_missing_run env_no_heading ∅
           "<html><h1>Welcome</h1></html>" not_visible); reflexivity.
Defined.

(** ** A failing [close] *)

(** X6: once the page is open, an exception raised by [browser.close()]
    is what [run] raises, whatever happened before: even a run whose [try]
    suite ran to its end, so that [homepage.png] was written and the
    success message printed, ends by raising. *)
Theorem close_failure_is_raised (E : env) (fs : gmap string screenshot_file)
    (e : exn) :
  launch_result E = Returns tt ->
  new_page_result E = Returns tt ->
  close_result E = Raises e ->
  result_of (run E playwright_handle) fs = Raises e /\
  (try_succeeds E ->
   exists d, files_of (run E playwright_handle) fs !! homepage_png
               = Some {| full_page := false; png := d |} /\
             In (nl +:+ success_message)
                (printed (trace_of (run E playwright_handle) fs))).
Proof.
  intros Hl Hn Hc. run_script.
  all: split; [reflexivity |].
  all: intros Hs; try discriminate Hs.
  all: eexists; split; [apply lookup_insert_eq | cbn; auto 10].
Qed.

Lemma close_failure_is_raised_witness :
  close_result env_close_fails = Raises browser_gone /\
  try_succeeds env_close_fails /\
  result_of (run env_close_fails playwright_handle) ∅ = Raises browser_gone /\
  (try_succeeds env_close_fails ->
   exists d, files_of (run env_close_fails playwright_handle) ∅ !! homepage_png
               = Some {| full_page := false; png := d |} /\
             In (nl +:+ success_message)
                (printed (trace_of (run env_close_fails playwright_handle) ∅))).
Proof.
  split; [reflexivity | split; [reflexivity |]].
  apply (close_failure_is_raised env_close_fails ∅ browser_gone); reflexivity.
Defined.

(** ** The module body *)

(** X7: the [with] statement wraps [run].  If [__enter__] raises, nothing
    else is called.  Otherwise the script's calls are [__enter__], those of
    [run], then [__exit__], which is called however [run] ended; the files
    are those [run] left; and the script raises what [__exit__] raises, or
    else what [run] raised unless [__exit__] returned a true value. *)
Theorem script_wraps_run (E : env) (fs : gmap string screenshot_file) :
  match sync_playwright_enter E with
  | Raises e =>
      result_of (script E) fs = Raises e /\
      trace_of (script E) fs = [EvEnter] /\
      files_of (script E) fs = fs
  | Returns _ =>
      trace_of (script E) fs
        = EvEnter :: trace_of (run E playwright_handle) fs ++ [EvExit] /\
      files_of (script E) fs = files_of (run E playwright_handle) fs /\
      result_of (script E) fs
        = match sync_playwright_exit E with
          | Raises e' => Raises e'
          | Returns suppress =>
              match result_of (run E playwright_handle) fs with
              | Returns _ => Returns tt
              | Raises e => if suppress then Returns tt else Raises e
              end
          end
  end.
Proof.
  unfold_script.
  repeat (cbv [fst snd];
          match goal with
          | |- context [match ?o with Returns _ => _ | Raises _ => _ end] =>
              lazymatch o with
              | context [E] =>
                  lazymatch o with
                  | context [trace] => fail
                  | context [World] => fail
                  | _ => destruct o as [?|?] eqn:?
                  end
              end
          | |- context [if is_Exception ?e then _ else _] =>
              destruct (is_Exception e) eqn:?
          | b : bool |- _ => destruct b
          end).
  all: repeat split; reflexivity.
Qed.
